(** * backend/app.py: the Cleaner Matching System web application

    The program is a Flask application with one view function, [home],
    registered for the rule "/" and started by [app.run(debug=True)] when
    the module runs as the main program.  The development below embeds

    - the Python fragment the module is written in (a state-and-exception
      monad for function bodies),
    - the part of Werkzeug's URL map and of Flask's request dispatch that
      the module calls into ([Flask(__name__)], [app.route], [app.run] and
      the WSGI entry point), and
    - the module itself,

    and then states the properties of the HTTP responder over them. *)

From Stdlib Require Import String Ascii List ZArith Bool Lia.
From stdpp Require Import base option list strings gmap.

Local Open Scope string_scope.
Local Open Scope Z_scope.

(** ** Python values and effects *)

(** Keyword arguments of a call, in call order. *)
Definition Kwargs := list (string * string).

(** A WSGI environ, reduced to the keys the application can observe.
    [HTTP_HEADERS] holds the [HTTP_*] keys, such as "HTTP_CONNECTION". *)
Record Environ := {
  REQUEST_METHOD : string;
  PATH_INFO : string;
  QUERY_STRING : string;
  wsgi_url_scheme : string;
  HTTP_HEADERS : gmap string string;
  wsgi_input : string
}.

(** A response object: status, the typed headers the application sets, and
    the body bytes. *)
Record Response := {
  status_code : Z;
  content_type : string;
  allow : gset string;
  location : option string;
  data : string
}.

(** What the fragment reads of [os.environ]: whether [FLASK_DEBUG] holds a
    true value, and whether [FLASK_RUN_FROM_CLI] is "true". *)
Record OsEnviron := {
  FLASK_DEBUG : bool;
  FLASK_RUN_FROM_CLI : bool
}.

(** What a view function may return: a [str], or a response object. *)
Inductive ResponseValue :=
| rv_str (s : string)
| rv_response (r : Response).

(** The exceptions that occur in the fragment. *)
Inductive Exception :=
| NotFound
| MethodNotAllowed (valid_methods : gset string)
| RequestRedirect (new_url : string)
| WebsocketMismatch
| TypeError (msg : string)
| KeyError (key : string)
| AssertionError (msg : string)
| InternalServerError.

Inductive Outcome (A : Type) :=
| Returned (a : A)
| Raised (e : Exception).
Arguments Returned {A} a.
Arguments Raised {A} e.

(** A computation over the mutable program state [S]: it ends by returning
    or by raising, and either way leaves a state behind. *)
Definition Py (S A : Type) : Type := S -> Outcome A * S.

Module PyMonad.
Definition ret {S A} (a : A) : Py S A := fun s => (Returned a, s).
Definition raise {S A} (e : Exception) : Py S A := fun s => (Raised e, s).
Definition bind {S A B} (m : Py S A) (k : A -> Py S B) : Py S B :=
  fun s => match m s with
           | (Returned a, s') => k a s'
           | (Raised e, s') => (Raised e, s')
           end.
Definition try_except {S A} (m : Py S A) (h : Exception -> Py S A) : Py S A :=
  fun s => match m s with
           | (Returned a, s') => (Returned a, s')
           | (Raised e, s') => h e s'
           end.
Definition get {S} : Py S S := fun s => (Returned s, s).
Definition put {S} (s' : S) : Py S unit := fun _ => (Returned tt, s').
End PyMonad.
Import PyMonad.

Notation "'let*' x ':=' m 'in' k" := (bind m (fun x => k))
  (at level 10, x name, m at level 100, k at level 200).

(** ** Strings *)

Module Str.
(** [str.upper] on ASCII letters; other characters are kept. *)
Definition upper_ascii (c : ascii) : ascii :=
  let n := nat_of_ascii c in
  if (Nat.leb 97 n && Nat.leb n 122)%bool then ascii_of_nat (n - 32) else c.

Fixpoint upper (s : string) : string :=
  match s with
  | EmptyString => EmptyString
  | String c r => String (upper_ascii c) (upper r)
  end.

(** [s.startswith(p)] *)
Fixpoint startswith (p s : string) : bool :=
  match p, s with
  | EmptyString, _ => true
  | String a p', String b s' => Ascii.eqb a b && startswith p' s'
  | String _ _, EmptyString => false
  end.

(** [str.lower] on ASCII letters; other characters are kept. *)
Definition lower_ascii (c : ascii) : ascii :=
  let n := nat_of_ascii c in
  if (Nat.leb 65 n && Nat.leb n 90)%bool then ascii_of_nat (n + 32) else c.

Fixpoint lower (s : string) : string :=
  match s with
  | EmptyString => EmptyString
  | String c r => String (lower_ascii c) (lower r)
  end.

(** [str.isspace] for one character of a WSGI string (code points below
    256). *)
Definition isspace (c : ascii) : bool :=
  let n := nat_of_ascii c in
  (Nat.leb 9 n && Nat.leb n 13) || (Nat.leb 28 n && Nat.leb n 32)
  || Nat.eqb n 133 || Nat.eqb n 160.

Fixpoint lstrip (s : string) : string :=
  match s with
  | EmptyString => EmptyString
  | String c r => if isspace c then lstrip r else s
  end.

Fixpoint rstrip (s : string) : string :=
  match s with
  | EmptyString => EmptyString
  | String c r =>
      match rstrip r with
      | EmptyString => if isspace c then EmptyString else String c EmptyString
      | r' => String c r'
      end
  end.

(** [s.strip()] *)
Definition strip (s : string) : string := rstrip (lstrip s).

(** [s.split(sep)] for a separator of one character. *)
Fixpoint split (sep : ascii) (s : string) : list string :=
  match s with
  | EmptyString => [EmptyString]
  | String c r =>
      if Ascii.eqb c sep then EmptyString :: split sep r
      else match split sep r with
           | h :: t => String c h :: t
           | [] => [String c EmptyString]
           end
  end.

(** [s.lstrip("/")] *)
Fixpoint lstrip_slash (s : string) : string :=
  match s with
  | EmptyString => EmptyString
  | String c r => if Ascii.eqb c "/" then lstrip_slash r else s
  end.

(** [s.endswith("/")] *)
Fixpoint endswith_slash (s : string) : bool :=
  match s with
  | EmptyString => false
  | String c EmptyString => Ascii.eqb c "/"
  | String _ r => endswith_slash r
  end.

(** The path with its slashes merged: every run of slashes becomes one
    slash (a slash that another slash follows is dropped). *)
Fixpoint merge_slashes (s : string) : string :=
  match s with
  | EmptyString => EmptyString
  | String c r =>
      if Ascii.eqb c "/" && startswith "/" r then merge_slashes r
      else String c (merge_slashes r)
  end.

(** [s.endswith(suffix)] *)
Definition endswith (suffix s : string) : bool :=
  let n := String.length s in
  let k := String.length suffix in
  Nat.leb k n && String.eqb (substring (n - k) k s) suffix.

(** [s[len(p):]] when [s.startswith(p)] *)
Fixpoint strip_prefix (p s : string) : option string :=
  match p, s with
  | EmptyString, _ => Some s
  | String a p', String b s' =>
      if Ascii.eqb a b then strip_prefix p' s' else None
  | String _ _, EmptyString => None
  end.

(** [s.partition(c)]: the text before the first [c], and the text after
    it when there is one. *)
Fixpoint partition (c : ascii) (s : string) : string * option string :=
  match s with
  | EmptyString => (EmptyString, None)
  | String a r =>
      if Ascii.eqb a c then (EmptyString, Some r)
      else let '(before, after) := partition c r in (String a before, after)
  end.
End Str.

(** ** Werkzeug: the URL map *)

Module Werkzeug.

(** A URL rule as [Rule.__init__] leaves it. *)
Record Rule := {
  rule : string;
  methods : gset string;
  endpoint : string;
  strict_slashes : bool;
  merge_slashes : bool;
  websocket : bool;
  provide_automatic_options : bool
}.

(** [Rule.__init__]: the methods are upper-cased, and HEAD is added to a
    rule that accepts GET; the rule is an HTTP rule, not a WebSocket
    one. *)
Definition Rule_init (rule : string) (methods : gset string)
    (endpoint : string) : Rule :=
  let methods := set_map (C := gset string) (D := gset string) Str.upper methods in
  let methods :=
    if decide (("HEAD" ∉ methods) /\ ("GET" ∈ methods))
    then methods ∪ {["HEAD"]} else methods in
  {| rule := rule; methods := methods; endpoint := endpoint;
     strict_slashes := true; merge_slashes := true; websocket := false;
     provide_automatic_options := false |}.

(** [is_leaf]: a rule that does not end in a slash. *)
Definition is_leaf (r : Rule) : bool := negb (Str.endswith_slash (rule r)).

(** The [path] converter accepts [[^/].*?]: a character other than a
    slash, followed by characters other than a line feed. *)
Definition path_converter (s : string) : bool :=
  match s with
  | EmptyString => false
  | String c r =>
      negb (Ascii.eqb c "/")
      && forallb (fun a => negb (Ascii.eqb a "010")) (list_ascii_of_string r)
  end.

(** Matching one rule text against a path.  Two shapes of rule are
    covered: a rule without variable part, which matches the path equal
    to it, and a rule that ends in one [<path:name>] variable, which
    matches its static prefix followed by what the converter accepts.
    Other shapes match nothing. *)
Definition match_rule (rule path : string) : option Kwargs :=
  match Str.partition "<" rule with
  | (_, None) => if String.eqb rule path then Some [] else None
  | (static, Some variable) =>
      match Str.strip_prefix "path:" variable with
      | Some rest =>
          match Str.partition ">" rest with
          | (name, Some EmptyString) =>
              match Str.strip_prefix static path with
              | Some value =>
                  if path_converter value then Some [(name, value)] else None
              | None => None
              end
          | _ => None
          end
      | None => None
      end
  end.

(** [env.get(key, "")] on the [HTTP_*] keys. *)
Definition environ_get (env : Environ) (key : string) : string :=
  default "" (HTTP_HEADERS env !! key).

(** The scheme [Map.bind_to_environ] binds the adapter to: a request whose
    Connection header lists "upgrade" and whose Upgrade header is
    "websocket" is given a WebSocket scheme. *)
Definition url_scheme (env : Environ) : string :=
  let scheme := wsgi_url_scheme env in
  let upgrade :=
    existsb (fun v => String.eqb (Str.strip v) "upgrade")
      (Str.split "," (Str.lower (environ_get env "HTTP_CONNECTION"))) in
  if upgrade && String.eqb (Str.lower (environ_get env "HTTP_UPGRADE")) "websocket"
  then if String.eqb scheme "https" then "wss" else "ws"
  else scheme.

(** [MapAdapter.websocket]: whether the adapter is bound to a WebSocket
    scheme. *)
Definition is_websocket (env : Environ) : bool :=
  String.eqb (url_scheme env) "ws" || String.eqb (url_scheme env) "wss".

(** One pass of the matcher over the rules. *)
Inductive Attempt :=
| Hit (r : Rule) (values : Kwargs)
| SlashRequired
| Miss.

(** What the matcher remembers of the rules it passed over: the methods
    of the rules whose path matched, and whether a rule failed on the
    WebSocket test only. *)
Record NoMatchInfo := {
  have_match_for : gset string;
  websocket_mismatch : bool
}.

(** The rules whose path matches: a rule that does not list the method
    adds its methods to [have_match_for]; one that lists it but is not of
    the request's kind (HTTP or WebSocket) sets [websocket_mismatch]; the
    first one that passes both tests is the result. *)
Fixpoint match_direct (rules : list Rule) (ws : bool) (path method : string)
    (seen : NoMatchInfo) : Attempt * NoMatchInfo :=
  match rules with
  | [] => (Miss, seen)
  | r :: rest =>
      match match_rule (rule r) path with
      | Some values =>
          if negb (bool_decide (method ∈ methods r)) then
            match_direct rest ws path method
              {| have_match_for := have_match_for seen ∪ methods r;
                 websocket_mismatch := websocket_mismatch seen |}
          else if negb (Bool.eqb (websocket r) ws) then
            match_direct rest ws path method
              {| have_match_for := have_match_for seen;
                 websocket_mismatch := true |}
          else (Hit r values, seen)
      | None => match_direct rest ws path method seen
      end
  end.

(** A rule that ends in a slash, requested without it. *)
Definition slash_required (r : Rule) (ws : bool) (path method : string)
    : bool :=
  negb (is_leaf r) && strict_slashes r
  && bool_decide (is_Some (match_rule (rule r) (path +:+ "/")))
  && Bool.eqb ws (websocket r)
  && bool_decide (method ∈ methods r).

Definition _match (rules : list Rule) (ws : bool) (path method : string)
    (seen : NoMatchInfo) : Attempt * NoMatchInfo :=
  match match_direct rules ws path method seen with
  | (Miss, seen) =>
      if existsb (fun r => slash_required r ws path method) rules
      then (SlashRequired, seen)
      else (Miss, seen)
  | found => found
  end.

(** The path the matcher is given: the leading slashes of a non-empty
    path are collapsed into one. *)
Definition path_part (path_info : string) : string :=
  match path_info with
  | EmptyString => EmptyString
  | _ => "/" +:+ Str.lstrip_slash path_info
  end.

(** The exception for a request no rule took: the methods of the rules
    that matched the path come first, then the WebSocket mismatch. *)
Definition no_match (seen : NoMatchInfo) : Exception :=
  if decide (have_match_for seen = ∅) then
    if websocket_mismatch seen then WebsocketMismatch else NotFound
  else MethodNotAllowed (have_match_for seen).

(** [MapAdapter.match] for an adapter bound to the rules, to a kind of
    request ([ws]) and to the URLs of its redirects: the method is
    upper-cased; a path that matches only once its slashes are merged, or
    only with a slash appended, is redirected. *)
Definition match_ (rules : list Rule) (ws : bool)
    (make_redirect_url : string -> string) (path_info method : string)
    : Outcome (Rule * Kwargs) :=
  let method := Str.upper method in
  let path_part := path_part path_info in
  match _match rules ws path_part method
          {| have_match_for := ∅; websocket_mismatch := false |} with
  | (Hit r values, _) => Returned (r, values)
  | (SlashRequired, _) =>
      Raised (RequestRedirect (make_redirect_url (path_part +:+ "/")))
  | (Miss, seen) =>
      let path := Str.merge_slashes path_part in
      match _match rules ws path method seen with
      | (Hit r values, seen) =>
          if merge_slashes r then Raised (RequestRedirect (make_redirect_url path))
          else Raised (no_match seen)
      | (SlashRequired, _) =>
          Raised (RequestRedirect (make_redirect_url (path +:+ "/")))
      | (Miss, seen) => Raised (no_match seen)
      end
  end.

(** [MapAdapter.allowed_methods] *)
Definition allowed_methods (rules : list Rule) (ws : bool)
    (make_redirect_url : string -> string) (path_info : string)
    : gset string :=
  match match_ rules ws make_redirect_url path_info "--" with
  | Raised (MethodNotAllowed valid_methods) => valid_methods
  | _ => ∅
  end.

End Werkzeug.

(** ** Flask: the application object and its request dispatch *)

Module Flask.
Import Werkzeug.

(** The options [Flask.run] hands to [werkzeug.serving.run_simple]. *)
Record ServerOptions := {
  host : string;
  port : Z;
  use_reloader : bool;
  use_debugger : bool;
  threaded : bool
}.

Section WithViews.
(** The function objects of the user program: their [__name__] and
    their bodies are supplied by the program. *)
Context {F : Type} `{EqDecision F}.

(** A registered view: the application's own static-file view, or a
    function of the program. *)
Inductive View :=
| static_view
| user_view (f : F).

#[export] Instance View_eq_dec : EqDecision View.
Proof. solve_decision. Defined.

(** The application object: the attributes that [Flask(...)], [route] and
    [run] set and that decide how a request is routed and answered.  The
    bookkeeping Flask keeps for itself while it serves is not part of
    it. *)
Record App := {
  import_name : string;
  static_folder : option string;
  url_map : list Rule;
  view_functions : gmap string View;
  debug : bool
}.

Variable __name__of : F -> string.
Variable call : F -> Environ -> Kwargs -> Py App ResponseValue.

(** The process environment: the environment variables, the files
    [send_from_directory] finds ([None] where it raises [NotFound]),
    the page Werkzeug renders for an HTTP exception, and the absolute
    URL [MapAdapter.make_redirect_url] builds for a path from the scheme,
    the host, the script name and the query string of a request. *)
Variable os_environ : OsEnviron.
Variable send_from_directory : Environ -> string -> string -> option Response.
Variable get_body : Exception -> string.
Variable make_redirect_url : Environ -> string -> string.

(** Assignments to one attribute of the application object. *)
Definition set_url_map (rules : list Rule) (app : App) : App :=
  {| import_name := import_name app; static_folder := static_folder app;
     url_map := rules; view_functions := view_functions app;
     debug := debug app |}.

Definition set_view_functions (fs : gmap string View) (app : App) : App :=
  {| import_name := import_name app; static_folder := static_folder app;
     url_map := url_map app; view_functions := fs; debug := debug app |}.

Definition set_debug (d : bool) (app : App) : App :=
  {| import_name := import_name app; static_folder := static_folder app;
     url_map := url_map app; view_functions := view_functions app;
     debug := d |}.

(** [_endpoint_from_view_func] *)
Definition _endpoint_from_view_func (view_func : option View)
    : Py App string :=
  match view_func with
  | None => raise (AssertionError "expected view func if endpoint is not provided.")
  | Some static_view => ret "<lambda>"
  | Some (user_view f) => ret (__name__of f)
  end.

(** [Flask.add_url_rule]: without [methods] the rule accepts GET; the
    methods are upper-cased; OPTIONS is added, and answered by the
    application itself, unless the caller listed it. *)
Definition add_url_rule (rule : string) (endpoint : option string)
    (view_func : option View) (methods : option (list string))
    : Py App unit :=
  let* endpoint :=
    match endpoint with
    | Some e => ret e
    | None => _endpoint_from_view_func view_func
    end in
  let methods : gset string :=
    match methods with
    | None => {["GET"]}
    | Some ms => list_to_set (map Str.upper ms)
    end in
  let automatic := bool_decide ("OPTIONS" ∉ methods) in
  let methods := if automatic then methods ∪ {["OPTIONS"]} else methods in
  let r := Rule_init rule methods endpoint in
  let r :=
    {| Werkzeug.rule := Werkzeug.rule r;
       Werkzeug.methods := Werkzeug.methods r;
       Werkzeug.endpoint := Werkzeug.endpoint r;
       Werkzeug.strict_slashes := Werkzeug.strict_slashes r;
       Werkzeug.merge_slashes := Werkzeug.merge_slashes r;
       Werkzeug.websocket := Werkzeug.websocket r;
       Werkzeug.provide_automatic_options := automatic |} in
  let* app := get in
  let* _ := put (set_url_map (url_map app ++ [r]) app) in
  match view_func with
  | None => ret tt
  | Some f =>
      let* app := get in
      match view_functions app !! endpoint with
      | Some old_func =>
          if decide (old_func = f) then
            put (set_view_functions (<[endpoint := f]> (view_functions app)) app)
          else raise (AssertionError endpoint)
      | None =>
          put (set_view_functions (<[endpoint := f]> (view_functions app)) app)
      end
  end.

(** [Flask.route]: the decorator registers the function under its own
    name and returns it. *)
Definition route (rule : string) (methods : option (list string)) (f : F)
    : Py App F :=
  let* _ := add_url_rule rule None (Some (user_view f)) methods in
  ret f.

(** [static_url_path]: the base name of the static folder. *)
Definition static_url_path (app : App) : option string :=
  match static_folder app with
  | Some folder => Some ("/" +:+ folder)
  | None => None
  end.

(** The object before [__init__] has run. *)
Definition Flask_new : App :=
  {| import_name := ""; static_folder := None; url_map := [];
     view_functions := ∅; debug := false |}.

(** [Flask.__init__] with its defaults: the static folder is "static",
    and a rule that serves it is registered whether or not the folder
    exists. *)
Definition Flask_init (import_name : string) : Py App unit :=
  let* _ := put {| import_name := import_name;
                   static_folder := Some "static"; url_map := [];
                   view_functions := ∅;
                   debug := FLASK_DEBUG os_environ |} in
  let* app := get in
  match static_url_path app with
  | Some prefix =>
      add_url_rule (prefix +:+ "/<path:filename>") (Some "static")
        (Some static_view) None
  | None => ret tt
  end.

(** [Flask.run]: the call is ignored under the [flask] command line;
    otherwise an explicit [debug] argument sets the application's debug
    flag, which then switches the reloader and the debugger of the
    development server on or off.  The result is the server started. *)
Definition run (host : option string) (port : option Z)
    (debug_arg : option bool) : Py App (option ServerOptions) :=
  if FLASK_RUN_FROM_CLI os_environ then ret None
  else
    let* _ :=
      match debug_arg with
      | Some d => let* app := get in put (set_debug d app)
      | None => ret tt
      end in
    let* app := get in
    ret (Some {| host := default "127.0.0.1" host; port := default 5000 port;
                 use_reloader := debug app; use_debugger := debug app;
                 threaded := true |}).

(** *** Responses *)

Definition default_mimetype : string := "text/html".

Definition _charset_mimetypes : list string :=
  ["application/ecmascript"; "application/javascript"; "application/sql";
   "application/xml"; "application/xml-dtd";
   "application/xml-external-parsed-entity"].

(** [werkzeug.utils.get_content_type] with the charset "utf-8" *)
Definition get_content_type (mimetype : string) : string :=
  if Str.startswith "text/" mimetype
     || bool_decide (mimetype ∈ _charset_mimetypes)
     || Str.endswith "+xml" mimetype
  then mimetype +:+ "; charset=utf-8" else mimetype.

(** [Response(response, status)]: the status defaults to 200 and the
    content type to the default mimetype. *)
Definition Response_init (response : string) (status : option Z)
    : Response :=
  {| status_code := default 200 status;
     content_type := get_content_type default_mimetype;
     allow := ∅; location := None; data := response |}.

(** The status code of an HTTP exception; other exceptions have none. *)
Definition code (e : Exception) : option Z :=
  match e with
  | NotFound => Some 404
  | MethodNotAllowed _ => Some 405
  | RequestRedirect _ => Some 308
  | WebsocketMismatch => Some 400
  | InternalServerError => Some 500
  | TypeError _ | KeyError _ | AssertionError _ => None
  end.

(** [HTTPException.get_response]: the error page, with the Allow
    header of a 405 and the Location header of a redirect. *)
Definition get_response (e : Exception) (status : Z) : Response :=
  {| status_code := status;
     content_type := "text/html; charset=utf-8";
     allow := match e with
              | MethodNotAllowed valid_methods => valid_methods
              | _ => ∅
              end;
     location := match e with
                 | RequestRedirect new_url => Some new_url
                 | _ => None
                 end;
     data := get_body e |}.

(** [Flask.make_response] *)
Definition make_response (rv : ResponseValue) : Response :=
  match rv with
  | rv_str s => Response_init s None
  | rv_response r => r
  end.

(** *** Request dispatch *)

(** [Flask.send_static_file] *)
Definition send_static_file (env : Environ) (kwargs : Kwargs)
    : Py App ResponseValue :=
  match kwargs with
  | [("filename", filename)] =>
      let* app := get in
      match static_folder app with
      | None => raise (AssertionError "'static_folder' must be set to serve static_files.")
      | Some folder =>
          match send_from_directory env folder filename with
          | Some r => ret (rv_response r)
          | None => raise NotFound
          end
      end
  | _ => raise (TypeError "send_static_file() got unexpected arguments")
  end.

Definition call_view (v : View) (env : Environ) (kwargs : Kwargs)
    : Py App ResponseValue :=
  match v with
  | static_view => send_static_file env kwargs
  | user_view f => call f env kwargs
  end.

(** [RequestContext.match_request]: the URL map of the application,
    bound to the request, matches its path and method. *)
Definition match_request (app : App) (env : Environ)
    : Outcome (Rule * Kwargs) :=
  match_ (url_map app) (is_websocket env) (make_redirect_url env)
    (PATH_INFO env) (REQUEST_METHOD env).

(** [Flask.make_default_options_response] *)
Definition make_default_options_response (env : Environ)
    : Py App ResponseValue :=
  let* app := get in
  let methods :=
    allowed_methods (url_map app) (is_websocket env) (make_redirect_url env)
      (PATH_INFO env) in
  let rv := Response_init "" None in
  ret (rv_response
         {| status_code := status_code rv; content_type := content_type rv;
            allow := methods; location := location rv; data := data rv |}).

(** [Flask.dispatch_request]: a routing failure is raised; OPTIONS is
    answered by the application when the rule says so; otherwise the
    view function registered for the endpoint is called with the
    values of the rule's variables. *)
Definition dispatch_request (env : Environ) : Py App ResponseValue :=
  let* app := get in
  match match_request app env with
  | Raised routing_exception => raise routing_exception
  | Returned (rule, view_args) =>
      if provide_automatic_options rule
         && String.eqb (Str.upper (REQUEST_METHOD env)) "OPTIONS"
      then make_default_options_response env
      else
        match view_functions app !! endpoint rule with
        | Some view => call_view view env view_args
        | None => raise (KeyError (endpoint rule))
        end
  end.

(** [Flask.handle_user_exception]: an HTTP exception becomes its
    response; any other exception is raised again. *)
Definition handle_user_exception (e : Exception) : Py App Response :=
  match code e with
  | Some status => ret (get_response e status)
  | None => raise e
  end.

(** [Flask.full_dispatch_request] *)
Definition full_dispatch_request (env : Environ) : Py App Response :=
  try_except
    (let* rv := dispatch_request env in ret (make_response rv))
    handle_user_exception.

(** [Flask.handle_exception]: an exception no handler took is raised
    to the server in debug mode and answered with 500 otherwise. *)
Definition handle_exception (e : Exception) : Py App Response :=
  let* app := get in
  if debug app then raise e
  else ret (get_response InternalServerError 500).

(** [Response.get_app_iter]: no body for HEAD and for the statuses that
    have none. *)
Definition get_app_iter (env : Environ) (r : Response) : Response :=
  let status := status_code r in
  if String.eqb (REQUEST_METHOD env) "HEAD"
     || (100 <=? status) && (status <? 200)
     || (status =? 204) || (status =? 304)
  then {| status_code := status_code r; content_type := content_type r;
          allow := allow r; location := location r; data := "" |}
  else r.

(** [Flask.wsgi_app]: one request, from the environ to the response
    the server sends. *)
Definition wsgi_app (env : Environ) : Py App Response :=
  let* response :=
    try_except (full_dispatch_request env) handle_exception in
  ret (get_app_iter env response).

(** The server loop: the requests are served one after the other on
    the same application object; a request whose handling raises gets
    no response from the application. *)
Fixpoint serve (envs : list Environ) (app : App)
    : list (Outcome Response) * App :=
  match envs with
  | [] => ([], app)
  | env :: rest =>
      let '(o, app') := wsgi_app env app in
      let '(os, app'') := serve rest app' in
      (o :: os, app'')
  end.
End WithViews.
Arguments View : clear implicits.
Arguments App : clear implicits.
End Flask.

(** ** The program: backend/app.py *)

Module app_py.
Import Werkzeug Flask.

(** The functions the module defines. *)
Inductive Function := fn_home.

#[export] Instance Function_eq_dec : EqDecision Function.
Proof. solve_decision. Defined.

Definition __name__of (f : Function) : string :=
  match f with
  | fn_home => "home"
  end.

(** [def home(): return "Welcome to the Cleaner Matching System!"]
    The function has no parameter, so a call with a keyword argument
    raises [TypeError] before the body runs. *)
Definition home {S : Type} (kwargs : Kwargs) : Py S ResponseValue :=
  match kwargs with
  | [] => ret (rv_str "Welcome to the Cleaner Matching System!")
  | (k, _) :: _ =>
      raise (TypeError ("home() got an unexpected keyword argument " +:+ k))
  end.

Definition call (f : Function) (env : Environ) (kwargs : Kwargs)
    : Py (App Function) ResponseValue :=
  match f with
  | fn_home => home kwargs
  end.

Section Process.
Variable os_environ : OsEnviron.
Variable send_from_directory : Environ -> string -> string -> option Response.
Variable get_body : Exception -> string.
Variable make_redirect_url : Environ -> string -> string.

(** The module body, run with [__name__] bound to the given name:
<<
  app = Flask(__name__)
  @app.route("/")
  def home(): ...
  if __name__ == "__main__":
      app.run(debug=True)
>>
    The result is the server [app.run] starts, if it is called. *)
Definition module (__name__ : string)
    : Py (App Function) (option ServerOptions) :=
  let* _ := Flask_init __name__of os_environ __name__ in
  let* _ := route __name__of "/" None fn_home in
  if String.eqb __name__ "__main__" then run os_environ None None (Some true)
  else ret None.

(** The application object once the module body has run. *)
Definition app (__name__ : string) : App Function :=
  snd (module __name__ Flask_new).

(** The server the module body starts. *)
Definition server (__name__ : string) : Outcome (option ServerOptions) :=
  fst (module __name__ Flask_new).

(** The application's answer to one request. *)
Definition respond (__name__ : string) (env : Environ)
    : Outcome Response * App Function :=
  wsgi_app call send_from_directory get_body make_redirect_url env
    (app __name__).

(** The application's answers to a sequence of requests. *)
Definition respond_all (__name__ : string) (envs : list Environ)
    : list (Outcome Response) * App Function :=
  serve call send_from_directory get_body make_redirect_url envs
    (app __name__).
End Process.
End app_py.


(** * Properties of the responder *)

(** ** Vocabulary *)

(** The methods of a rule registered without [methods]: GET, the HEAD that
    comes with it, and the automatic OPTIONS. *)
Definition allowed : gset string := {["GET"; "HEAD"; "OPTIONS"]}.

(** The rule [Flask.__init__] registers for the static folder. *)
Definition static_rule : Werkzeug.Rule :=
  {| Werkzeug.rule := "/static/<path:filename>"; Werkzeug.methods := allowed;
     Werkzeug.endpoint := "static"; Werkzeug.strict_slashes := true;
     Werkzeug.merge_slashes := true; Werkzeug.websocket := false;
     Werkzeug.provide_automatic_options := true |}.

(** The rule [@app.route("/")] registers for [home]. *)
Definition home_rule : Werkzeug.Rule :=
  {| Werkzeug.rule := "/"; Werkzeug.methods := allowed;
     Werkzeug.endpoint := "home"; Werkzeug.strict_slashes := true;
     Werkzeug.merge_slashes := true; Werkzeug.websocket := false;
     Werkzeug.provide_automatic_options := true |}.

Definition app_rules : list Werkzeug.Rule := [static_rule; home_rule].

Definition app_views : gmap string (Flask.View app_py.Function) :=
  <["home" := Flask.user_view app_py.fn_home]>
    (<["static" := Flask.static_view]> ∅).

(** A computation that leaves the state as it found it. *)
Definition preserves_state {S A : Type} (m : Py S A) : Prop :=
  forall s, snd (m s) = s.

(** The status of the answer, when the application gives one. *)
Definition status {S : Type} (answer : Outcome Response * S) : option Z :=
  match fst answer with
  | Returned r => Some (status_code r)
  | Raised _ => None
  end.

(** The response [make_response] builds from the text [home] returns. *)
Definition welcome : Response :=
  {| status_code := 200; content_type := "text/html; charset=utf-8";
     allow := ∅; location := None;
     data := "Welcome to the Cleaner Matching System!" |}.

(** The response to OPTIONS on a path whose rules list the methods above. *)
Definition options_response : Response :=
  {| status_code := 200; content_type := "text/html; charset=utf-8";
     allow := allowed; location := None; data := "" |}.

(** A process environment with neither variable set, no static files,
    empty error pages, and redirects to the bare path. *)
Definition no_environ : OsEnviron :=
  {| FLASK_DEBUG := false; FLASK_RUN_FROM_CLI := false |}.

Definition no_files : Environ -> string -> string -> option Response :=
  fun _ _ _ => None.

Definition no_page : Exception -> string := fun _ => "".

Definition bare_path : Environ -> string -> string := fun _ path => path.

(** A plain HTTP request with the given method and path, and nothing
    else. *)
Definition request (method path : string) : Environ :=
  {| REQUEST_METHOD := method; PATH_INFO := path; QUERY_STRING := "";
     wsgi_url_scheme := "http"; HTTP_HEADERS := ∅; wsgi_input := "" |}.


(** A GET request for "/" with a query string, an Accept header and a
    body. *)
Definition busy_request : Environ :=
  {| REQUEST_METHOD := "GET"; PATH_INFO := "/"; QUERY_STRING := "debug=1";
     wsgi_url_scheme := "https";
     HTTP_HEADERS := <["HTTP_ACCEPT" := "text/plain"]> ∅;
     wsgi_input := "payload" |}.

Import Werkzeug Flask app_py.

(** ** Strings *)

Module StrFacts.
Import Str.









Lemma append_slash_nonempty s : s <> "" -> s +:+ "/" <> "/".
Proof.
  destruct s as [|c r]; [easy|]. intros _ H.
  injection H as _ H. destruct r; discriminate H.
Qed.
End StrFacts.

(** ** The application object the module builds *)

Lemma app_eq os_environ name :
  app os_environ name =
  {| import_name := name; static_folder := Some "static";
     url_map := app_rules; view_functions := app_views;
     debug := if String.eqb name "__main__"
                 && negb (FLASK_RUN_FROM_CLI os_environ)
              then true else FLASK_DEBUG os_environ |}.
Proof.
  unfold app, module. destruct os_environ as [fd cli].
  destruct (String.eqb name "__main__"), cli; vm_compute; reflexivity.
Qed.

Module Routing.
Import Str StrFacts.

Lemma match_rule_root p :
  match_rule "/" p = if String.eqb "/" p then Some [] else None.
Proof. reflexivity. Qed.

Lemma match_rule_static p :
  match_rule "/static/<path:filename>" p =
  match strip_prefix "/static/" p with
  | Some value =>
      if path_converter value then Some [("filename", value)] else None
  | None => None
  end.
Proof. reflexivity. Qed.


(** The matcher on the two rules of the application, rule by rule. *)
Lemma match_direct_rules ws p M seen :
  match_direct app_rules ws p M seen =
  let step (hit : option Kwargs) (r : Rule)
        (k : NoMatchInfo -> Attempt * NoMatchInfo) (seen : NoMatchInfo) :=
    match hit with
    | Some values =>
        if negb (bool_decide (M ∈ allowed)) then
          k {| have_match_for := have_match_for seen ∪ allowed;
               websocket_mismatch := websocket_mismatch seen |}
        else if negb (Bool.eqb false ws) then
          k {| have_match_for := have_match_for seen;
               websocket_mismatch := true |}
        else (Hit r values, seen)
    | None => k seen
    end in
  step (match_rule "/static/<path:filename>" p) static_rule
    (step (match_rule "/" p) home_rule (fun seen => (Miss, seen))) seen.
Proof. reflexivity. Qed.

Lemma slash_required_rules ws p M :
  p <> "" -> existsb (fun r => slash_required r ws p M) app_rules = false.
Proof.
  intros Hp%append_slash_nonempty.
  unfold app_rules, existsb, slash_required.
  change (is_leaf static_rule) with true.
  change (rule home_rule) with "/". rewrite match_rule_root.
  destruct (String.eqb_spec "/" (p +:+ "/")); [congruence|].
  reflexivity.
Qed.



End Routing.

Module RoutingRoot.
Import Str StrFacts Routing.

Lemma allowed_nonempty : allowed <> ∅.
Proof. unfold allowed. set_solver. Qed.

Lemma elem_of_allowed m :
  m = "GET" \/ m = "HEAD" \/ m = "OPTIONS" -> m ∈ allowed.
Proof.
  unfold allowed. rewrite !elem_of_union, !elem_of_singleton. tauto.
Qed.

Lemma union_allowed_twice (h : gset string) :
  h ∪ allowed ∪ allowed = h ∪ allowed.
Proof. rewrite <- (assoc_L (∪)), (idemp_L (∪) allowed). reflexivity. Qed.

Lemma _match_root_hit M seen :
  M ∈ allowed -> _match app_rules false "/" M seen = (Hit home_rule [], seen).
Proof.
  intros HM. unfold _match. rewrite match_direct_rules.
  change (match_rule "/static/<path:filename>" "/") with (@None Kwargs).
  change (match_rule "/" "/") with (Some (@nil (string * string))).
  cbv zeta iota beta. rewrite (bool_decide_eq_true_2 _ HM). reflexivity.
Qed.

Lemma _match_root_websocket M seen :
  M ∈ allowed ->
  _match app_rules true "/" M seen
  = (Miss, {| have_match_for := have_match_for seen;
              websocket_mismatch := true |}).
Proof.
  intros HM. unfold _match. rewrite match_direct_rules.
  change (match_rule "/static/<path:filename>" "/") with (@None Kwargs).
  change (match_rule "/" "/") with (Some (@nil (string * string))).
  cbv zeta iota beta. rewrite (bool_decide_eq_true_2 _ HM). cbn [negb Bool.eqb].
  rewrite slash_required_rules by easy. reflexivity.
Qed.

Lemma _match_root_miss ws M seen :
  M ∉ allowed ->
  _match app_rules ws "/" M seen
  = (Miss, {| have_match_for := have_match_for seen ∪ allowed;
              websocket_mismatch := websocket_mismatch seen |}).
Proof.
  intros HM. unfold _match. rewrite match_direct_rules.
  change (match_rule "/static/<path:filename>" "/") with (@None Kwargs).
  change (match_rule "/" "/") with (Some (@nil (string * string))).
  cbv zeta iota beta. rewrite (bool_decide_eq_false_2 _ HM). cbn [negb].
  rewrite slash_required_rules by easy. reflexivity.
Qed.

(** The root path with a method of the rule reaches [home], with no
    arguments, unless the request asks for a WebSocket. *)
Lemma match_root_allowed url path_info method :
  path_part path_info = "/" -> upper method ∈ allowed ->
  match_ app_rules false url path_info method = Returned (home_rule, []).
Proof.
  intros Hp HM. unfold match_. rewrite Hp, (_match_root_hit _ _ HM).
  reflexivity.
Qed.

Lemma match_root_websocket url path_info method :
  path_part path_info = "/" -> upper method ∈ allowed ->
  match_ app_rules true url path_info method = Raised WebsocketMismatch.
Proof.
  intros Hp HM. unfold match_. rewrite Hp, (_match_root_websocket _ _ HM).
  change (merge_slashes "/") with "/". rewrite (_match_root_websocket _ _ HM).
  unfold no_match. cbn [have_match_for websocket_mismatch].
  destruct (decide (∅ = ∅)) as [_|Hne]; [reflexivity|]. now destruct Hne.
Qed.

(** The root path with any other method is refused. *)
Lemma match_root_refused ws url path_info method :
  path_part path_info = "/" -> upper method ∉ allowed ->
  match_ app_rules ws url path_info method = Raised (MethodNotAllowed allowed).
Proof.
  intros Hp HM. unfold match_. rewrite Hp, (_match_root_miss _ _ _ HM).
  change (merge_slashes "/") with "/". rewrite (_match_root_miss _ _ _ HM).
  unfold no_match. cbn [have_match_for websocket_mismatch].
  rewrite union_allowed_twice, (left_id_L ∅ (∪)).
  destruct (decide (allowed = ∅)) as [E|_]; [|reflexivity].
  now destruct allowed_nonempty.
Qed.

Lemma allowed_methods_root ws url path_info :
  path_part path_info = "/" ->
  allowed_methods app_rules ws url path_info = allowed.
Proof.
  intros Hp. unfold allowed_methods.
  rewrite (match_root_refused ws url path_info "--" Hp); [reflexivity|].
  change (upper "--") with "--". unfold allowed.
  rewrite !elem_of_union, !elem_of_singleton.
  intros [[H|H]|H]; discriminate H.
Qed.

(** The matcher raises HTTP exceptions only. *)
Lemma match_raises_http rules ws url path_info method e :
  match_ rules ws url path_info method = Raised e ->
  exists st, code e = Some st.
Proof.
  unfold match_, no_match.
  destruct (_match rules ws (path_part path_info) (upper method) _)
    as [[r v| |] seen]; [discriminate| |].
  - intros [= <-]. eexists. reflexivity.
  - destruct (_match rules ws _ (upper method) seen) as [[r v| |] seen'];
      [destruct (Werkzeug.merge_slashes r)|..];
      repeat match goal with
             | |- context [if ?b then _ else _] => destruct b
             end;
      intros [= <-]; eexists; reflexivity.
Qed.

(** What the URL map of the application returns: the request is not a
    WebSocket handshake, its method is one of the rules', and the result
    is the static rule with a file name, or the rule of [home] with no
    value. *)
Lemma match_inv ws url path_info method r values :
  match_ app_rules ws url path_info method = Returned (r, values) ->
  ws = false /\ upper method ∈ allowed
  /\ ((r = static_rule
       /\ exists value,
            values = [("filename", value)]
            /\ strip_prefix "/static/" (path_part path_info) = Some value
            /\ path_converter value = true)
      \/ (r = home_rule /\ values = [] /\ path_part path_info = "/")).
Proof.
  unfold match_.
  destruct (_match app_rules ws (path_part path_info) (upper method) _)
    as [[r0 v0| |] seen] eqn:E1.
  - intros [= <- <-]. revert E1. unfold _match.
    rewrite match_direct_rules, match_rule_root, match_rule_static.
    cbv zeta.
    destruct (strip_prefix "/static/" (path_part path_info)) as [value|];
      [destruct (path_converter value) eqn:Hc|];
      destruct (bool_decide_reflect (upper method ∈ allowed));
      destruct (String.eqb_spec "/" (path_part path_info));
      destruct ws; cbn [negb Bool.eqb];
      repeat match goal with
             | |- context [if ?b then _ else _] => destruct b
             end;
      intros [= <- <-]; repeat split; eauto 10.
  - discriminate.
  - destruct (_match app_rules ws _ (upper method) seen) as [[r1 v1| |] seen'];
      [destruct (Werkzeug.merge_slashes r1)|..]; discriminate.
Qed.

(** A request that the map routes to the endpoint "home" is a plain HTTP
    request for the root path with a method of the rule, and carries no
    arguments. *)
Lemma match_home_inv ws url path_info method r values :
  match_ app_rules ws url path_info method = Returned (r, values) ->
  endpoint r = "home" ->
  r = home_rule /\ values = [] /\ path_part path_info = "/"
  /\ upper method ∈ allowed /\ ws = false.
Proof.
  intros Hm He. destruct (match_inv _ _ _ _ _ _ Hm) as (Hws & Hin & H).
  destruct H as [(-> & _)|(-> & -> & Hp)]; [discriminate He | auto].
Qed.



End RoutingRoot.

(** ** Computations that leave the state alone *)

Module Frame.
Lemma ret_preserves {S A} (a : A) : preserves_state (S := S) (ret a).
Proof. intros s. reflexivity. Qed.

Lemma raise_preserves {S A} e : preserves_state (S := S) (A := A) (raise e).
Proof. intros s. reflexivity. Qed.

Lemma get_preserves {S} : preserves_state (S := S) get.
Proof. intros s. reflexivity. Qed.

Lemma bind_preserves {S A B} (m : Py S A) (k : A -> Py S B) :
  preserves_state m -> (forall a, preserves_state (k a)) ->
  preserves_state (bind m k).
Proof.
  intros Hm Hk s. unfold bind. specialize (Hm s).
  destruct (m s) as [[a|e] s']; simpl in Hm; subst s'; [apply Hk|reflexivity].
Qed.

Lemma try_except_preserves {S A} (m : Py S A) (h : Exception -> Py S A) :
  preserves_state m -> (forall e, preserves_state (h e)) ->
  preserves_state (try_except m h).
Proof.
  intros Hm Hh s. unfold try_except. specialize (Hm s).
  destruct (m s) as [[a|e] s']; simpl in Hm; subst s'; [reflexivity|apply Hh].
Qed.

Create HintDb frame.
#[export] Hint Resolve ret_preserves raise_preserves get_preserves : frame.

(** Follows the structure of a computation down to its primitives. *)
Ltac frame :=
  repeat first
    [ solve [eauto with frame]
    | apply bind_preserves; [|intros ?]
    | apply try_except_preserves; [|intros ?]
    | match goal with
      | |- preserves_state (match ?x with _ => _ end) => destruct x
      | |- preserves_state (if ?b then _ else _) => destruct b
      end ].

Section WithCall.
Context {F : Type} `{EqDecision F}.
Variable call : F -> Environ -> Kwargs -> Py (App F) ResponseValue.
Variable send_from_directory : Environ -> string -> string -> option Response.
Variable get_body : Exception -> string.
Variable make_redirect_url : Environ -> string -> string.
Hypothesis call_preserves : forall f env kwargs, preserves_state (call f env kwargs).

Lemma dispatch_request_preserves env :
  preserves_state
    (dispatch_request call send_from_directory make_redirect_url env).
Proof.
  unfold dispatch_request, make_default_options_response, call_view,
    send_static_file. frame.
Qed.

(** Serving a request leaves the application object as it was, as long
    as the functions of the program do. *)
Lemma wsgi_app_preserves env :
  preserves_state
    (wsgi_app call send_from_directory get_body make_redirect_url env).
Proof.
  unfold wsgi_app, full_dispatch_request, handle_user_exception,
    handle_exception.
  pose proof (dispatch_request_preserves env). frame.
Qed.

Lemma serve_preserves envs a :
  snd (serve call send_from_directory get_body make_redirect_url envs a) = a.
Proof.
  revert a; induction envs as [|env envs IH]; intros a; [reflexivity|].
  cbn [serve]. pose proof (wsgi_app_preserves env a) as Hw.
  destruct (wsgi_app _ _ _ _ env a) as [o a']. simpl in Hw. subst a'.
  specialize (IH a). destruct (serve _ _ _ _ envs a) as [os a''].
  exact IH.
Qed.
End WithCall.

Lemma home_preserves {S} kwargs : preserves_state (S := S) (home kwargs).
Proof. unfold home. frame. Qed.

Lemma call_preserves f env kwargs : preserves_state (call f env kwargs).
Proof. destruct f. apply home_preserves. Qed.
End Frame.


(** ** Requests and their answers *)

Section Dispatch.
Import Str RoutingRoot.

Variable os_environ : OsEnviron.
Variable send_from_directory : Environ -> string -> string -> option Response.
Variable get_body : Exception -> string.
Variable make_redirect_url : Environ -> string -> string.

Local Abbreviation wsgi_app :=
  (wsgi_app call send_from_directory get_body make_redirect_url).
Local Abbreviation respond :=
  (respond os_environ send_from_directory get_body make_redirect_url).
Local Abbreviation respond_all :=
  (respond_all os_environ send_from_directory get_body make_redirect_url).
Local Abbreviation app := (app os_environ).
Local Abbreviation match_request := (match_request make_redirect_url).

Lemma url_map_app name : url_map (app name) = app_rules.
Proof. rewrite app_eq. reflexivity. Qed.

Lemma view_functions_app name : view_functions (app name) = app_views.
Proof. rewrite app_eq. reflexivity. Qed.

(** A routing failure is answered with the page of the HTTP exception. *)
Lemma wsgi_app_routing_exception env a e st :
  match_request a env = Raised e ->
  code e = Some st ->
  wsgi_app env a = (Returned (get_app_iter env (get_response get_body e st)), a).
Proof.
  intros Hm Hc.
  unfold Flask.wsgi_app, full_dispatch_request, dispatch_request,
    handle_user_exception, bind, try_except, get, raise, ret.
  rewrite Hm, Hc. reflexivity.
Qed.

(** A request routed to [home] with no arguments is answered with the
    text it returns. *)
Lemma wsgi_app_home env a :
  match_request a env = Returned (home_rule, []) ->
  upper (REQUEST_METHOD env) <> "OPTIONS" ->
  view_functions a !! "home" = Some (user_view fn_home) ->
  wsgi_app env a = (Returned (get_app_iter env welcome), a).
Proof.
  intros Hm Ho Hv.
  unfold Flask.wsgi_app, full_dispatch_request, dispatch_request,
    bind, try_except, get.
  rewrite Hm. cbn [provide_automatic_options home_rule andb endpoint].
  destruct (String.eqb_spec (upper (REQUEST_METHOD env)) "OPTIONS");
    [contradiction|].
  rewrite Hv. reflexivity.
Qed.

(** OPTIONS on a rule with automatic options is answered by the
    application with the methods of the path. *)
Lemma wsgi_app_options env a r values :
  match_request a env = Returned (r, values) ->
  provide_automatic_options r = true ->
  upper (REQUEST_METHOD env) = "OPTIONS" ->
  wsgi_app env a =
  (Returned (get_app_iter env
     {| status_code := 200; content_type := "text/html; charset=utf-8";
        allow := allowed_methods (url_map a) (is_websocket env)
                   (make_redirect_url env) (PATH_INFO env);
        location := None; data := "" |}), a).
Proof.
  intros Hm Hp Ho.
  unfold Flask.wsgi_app, full_dispatch_request, dispatch_request,
    bind, try_except, get.
  rewrite Hm, Hp, Ho. reflexivity.
Qed.

(** A request routed to the static view is answered with the file, or
    with the page for 404 where there is none. *)
Lemma wsgi_app_static env a value :
  match_request a env = Returned (static_rule, [("filename", value)]) ->
  upper (REQUEST_METHOD env) <> "OPTIONS" ->
  view_functions a !! "static" = Some static_view ->
  static_folder a = Some "static" ->
  wsgi_app env a =
  (Returned (get_app_iter env
     match send_from_directory env "static" value with
     | Some r => r
     | None => get_response get_body NotFound 404
     end), a).
Proof.
  intros Hm Ho Hv Hf.
  unfold Flask.wsgi_app, full_dispatch_request, dispatch_request,
    call_view, send_static_file, bind, try_except, get.
  rewrite Hm. cbn [provide_automatic_options static_rule andb endpoint].
  destruct (String.eqb_spec (upper (REQUEST_METHOD env)) "OPTIONS");
    [contradiction|].
  rewrite Hv, Hf. now destruct (send_from_directory env "static" value).
Qed.

Lemma match_request_app name env :
  match_request (app name) env
  = match_ app_rules (is_websocket env) (make_redirect_url env)
      (PATH_INFO env) (REQUEST_METHOD env).
Proof. unfold Flask.match_request. rewrite url_map_app. reflexivity. Qed.

(** The answer to a request for the root path: by method, and by whether
    the request asks for a WebSocket. *)
Lemma respond_root name env :
  path_part (PATH_INFO env) = "/" ->
  respond name env =
  (Returned (get_app_iter env
     (if decide (upper (REQUEST_METHOD env) ∈ allowed) then
        if is_websocket env then get_response get_body WebsocketMismatch 400
        else if String.eqb (upper (REQUEST_METHOD env)) "OPTIONS"
             then options_response
             else welcome
      else get_response get_body (MethodNotAllowed allowed) 405)),
   app name).
Proof.
  intros Hp. unfold app_py.respond.
  destruct (decide (upper (REQUEST_METHOD env) ∈ allowed)) as [Hin|Hout].
  - destruct (is_websocket env) eqn:Hws.
    + apply wsgi_app_routing_exception; [|reflexivity].
      rewrite match_request_app, Hws. now apply match_root_websocket.
    + pose proof (match_request_app name env) as Hm.
      rewrite Hws, (match_root_allowed _ _ _ Hp Hin) in Hm.
      destruct (String.eqb_spec (upper (REQUEST_METHOD env)) "OPTIONS") as [Ho|Ho].
      * rewrite (wsgi_app_options env _ _ _ Hm eq_refl Ho).
        rewrite url_map_app, (allowed_methods_root _ _ _ Hp). reflexivity.
      * apply wsgi_app_home; rewrite ?view_functions_app; auto.
  - apply wsgi_app_routing_exception; [|reflexivity].
    rewrite match_request_app. now apply match_root_refused.
Qed.

(** The answer to a request is a response, and the same one under every
    module name and in every environment. *)
Lemma respond_any env :
  exists r, forall os_environ name,
    app_py.respond os_environ send_from_directory get_body make_redirect_url
      name env
    = (Returned r, app_py.app os_environ name).
Proof.
  destruct (match_ app_rules (is_websocket env) (make_redirect_url env)
              (PATH_INFO env) (REQUEST_METHOD env))
    as [[r values]|e] eqn:E.
  - destruct (match_inv _ _ _ _ _ _ E) as (_ & _ & H).
    assert (Hm : forall os name,
               match_request (app_py.app os name) env = Returned (r, values)).
    { intros os name. unfold Flask.match_request. rewrite app_eq. exact E. }
    destruct (String.eqb_spec (upper (REQUEST_METHOD env)) "OPTIONS") as [Ho|Ho].
    + eexists. intros os name. unfold app_py.respond.
      rewrite (wsgi_app_options env _ _ _ (Hm os name));
        [|destruct H as [[-> _]|[-> _]]; reflexivity|exact Ho].
      rewrite !app_eq. cbn [url_map]. reflexivity.
    + destruct H as [(-> & value & -> & _)|(-> & -> & _)];
        eexists; intros os name; unfold app_py.respond.
      * apply (wsgi_app_static env _ value); auto;
          rewrite app_eq; reflexivity.
      * apply wsgi_app_home; auto. rewrite app_eq. reflexivity.
  - destruct (match_raises_http _ _ _ _ _ _ E) as [st Hst].
    eexists. intros os name. unfold app_py.respond.
    apply wsgi_app_routing_exception; [|exact Hst].
    unfold Flask.match_request. rewrite app_eq. exact E.
Qed.

(** The answers to a sequence of requests are the answers each request
    gets alone. *)
Lemma serve_map envs a :
  serve call send_from_directory get_body make_redirect_url envs a
  = (map (fun env => fst (wsgi_app env a)) envs, a).
Proof.
  induction envs as [|env envs IH]; [reflexivity|].
  cbn [serve map].
  pose proof (Frame.wsgi_app_preserves call send_from_directory get_body
                make_redirect_url Frame.call_preserves env a) as Hw.
  destruct (Flask.wsgi_app _ _ _ _ env a) as [o a']. cbn [snd fst] in *.
  subst a'. rewrite IH. reflexivity.
Qed.

Lemma status_code_get_app_iter env r :
  status_code (get_app_iter env r) = status_code r.
Proof. unfold get_app_iter. now destruct (_ || _). Qed.

Lemma get_app_iter_method env1 env2 r :
  REQUEST_METHOD env1 = REQUEST_METHOD env2 ->
  get_app_iter env1 r = get_app_iter env2 r.
Proof. intros H. unfold get_app_iter. now rewrite H. Qed.

(** On a GET request nothing is taken from a response with a body. *)
Lemma get_app_iter_get env r :
  REQUEST_METHOD env = "GET" ->
  status_code r = 200 \/ status_code r = 400 ->
  get_app_iter env r = r.
Proof.
  intros Hm Hs. unfold get_app_iter. rewrite Hm.
  destruct Hs as [-> | ->]; reflexivity.
Qed.

(** ** The claims *)




(** C4: the response to GET "/" carries the content type
    "text/html; charset=utf-8", which is not text/plain but the content
    type Flask gives every view that returns a [str]. *)
Theorem get_root_content_type name env :
  REQUEST_METHOD env = "GET" -> PATH_INFO env = "/" ->
  exists r, fst (respond name env) = Returned r
            /\ content_type r = "text/html; charset=utf-8"
            /\ forall s, content_type (make_response (rv_str s)) = content_type r.
Proof.
  intros Hm Hp.
  rewrite respond_root by (rewrite Hp; reflexivity).
  rewrite Hm, decide_True by (apply elem_of_allowed; auto).
  destruct (is_websocket env); rewrite get_app_iter_get by auto;
    eexists; (split; [reflexivity|]); split; reflexivity.
Qed.


(** C6: two requests that the URL map routes to [home] and that have the
    same method and the same path get the same answer, whatever their
    query strings, headers and bodies. *)
Theorem root_noninterference name env1 env2 r1 values1 r2 values2 :
  REQUEST_METHOD env1 = REQUEST_METHOD env2 ->
  PATH_INFO env1 = PATH_INFO env2 ->
  match_request (app name) env1 = Returned (r1, values1) ->
  endpoint r1 = "home" ->
  match_request (app name) env2 = Returned (r2, values2) ->
  endpoint r2 = "home" ->
  respond name env1 = respond name env2.
Proof.
  intros Hm Hp H1 E1 H2 E2. rewrite match_request_app in H1, H2.
  destruct (match_home_inv _ _ _ _ _ _ H1 E1) as (_ & _ & Hp1 & _ & Hw1).
  destruct (match_home_inv _ _ _ _ _ _ H2 E2) as (_ & _ & Hp2 & _ & Hw2).
  rewrite (respond_root name env1 Hp1), (respond_root name env2 Hp2).
  rewrite Hw1, Hw2, Hm. f_equal. f_equal. now apply get_app_iter_method.
Qed.

(** C7: [home] leaves every state it runs in as it was, and serving a
    request for "/" leaves the application object as it was. *)
Theorem root_request_frame name env :
  PATH_INFO env = "/" ->
  (forall (S : Type) kwargs (s : S), snd (home kwargs s) = s)
  /\ snd (respond name env) = app name.
Proof.
  intros Hp. split.
  - intros S kwargs s. apply Frame.home_preserves.
  - rewrite respond_root by (rewrite Hp; reflexivity). reflexivity.
Qed.

(** C8: when the URL map routes a request to the endpoint "home", the call
    of [home] with the values of the match returns, the handling of the
    request does not raise, and the answer has status 200. *)
Theorem home_never_raises name env r values :
  match_ (url_map (app name)) (is_websocket env) (make_redirect_url env)
    (PATH_INFO env) (REQUEST_METHOD env)
    = Returned (r, values) ->
  endpoint r = "home" ->
  (exists rv, forall s, call fn_home env values s = (Returned rv, s))
  /\ status (respond name env) = Some 200.
Proof.
  rewrite url_map_app. intros Hm He.
  destruct (match_home_inv _ _ _ _ _ _ Hm He) as (-> & -> & Hp & Hin & Hws).
  split.
  - eexists. intros s. reflexivity.
  - rewrite (respond_root name env Hp), Hws.
    destruct (decide (Str.upper (REQUEST_METHOD env) ∈ allowed));
      [|contradiction].
    unfold status. cbn [fst]. rewrite status_code_get_app_iter.
    now destruct (String.eqb _ "OPTIONS").
Qed.

(** C9: the only call of [run] passes [debug=True] and sits under the
    [__main__] guard.  Run as the main program (and not under the [flask]
    command line, where [run] does nothing), the module starts the server
    with the debugger and the reloader switched on and sets the debug
    flag, whatever [FLASK_DEBUG] says; under any other name it starts no
    server and leaves the debug flag as the environment set it. *)
Theorem debug_flag_only_as_main name :
  server os_environ name
  = Returned (if String.eqb name "__main__"
                 && negb (FLASK_RUN_FROM_CLI os_environ)
              then Some {| host := "127.0.0.1"; port := 5000;
                           use_reloader := true; use_debugger := true;
                           threaded := true |}
              else None)
  /\ debug (app name)
     = (if String.eqb name "__main__" && negb (FLASK_RUN_FROM_CLI os_environ)
        then true else FLASK_DEBUG os_environ).
Proof.
  split; [|rewrite app_eq; reflexivity].
  unfold server, module. destruct os_environ as [fd cli].
  destruct (String.eqb name "__main__"), cli; vm_compute; reflexivity.
Qed.


(** ** Properties of the whole application *)


(** X2: every request gets a response from the application: the handling
    never raises to the server, in debug mode or not. *)
Theorem every_request_answered name env :
  exists r, fst (respond name env) = Returned r.
Proof.
  destruct (respond_any env) as [r Hr]. exists r. now rewrite Hr.
Qed.

(** X4: served one after the other, the requests of any sequence get the
    answers each of them gets alone, and the application object is
    afterwards as it was. *)
Theorem answers_independent_of_history name envs :
  fst (respond_all name envs) = map (fun env => fst (respond name env)) envs
  /\ snd (respond_all name envs) = app name.
Proof.
  unfold app_py.respond_all, app_py.respond. rewrite serve_map. split; reflexivity.
Qed.


End Dispatch.

(** X3: the answer of the application object to a request is the same
    under every module name and with every setting of the environment
    variables. *)
Theorem answer_independent_of_name_and_environment
    send_from_directory get_body make_redirect_url
    os_environ1 os_environ2 name1 name2 env :
  fst (respond os_environ1 send_from_directory get_body make_redirect_url
         name1 env)
  = fst (respond os_environ2 send_from_directory get_body make_redirect_url
           name2 env).
Proof.
  destruct (respond_any send_from_directory get_body make_redirect_url env)
    as [r Hr].
  now rewrite !Hr.
Qed.

(** ** The claims at concrete requests *)







(** C4 at a GET request for "/". *)
Lemma get_root_content_type_witness :
  REQUEST_METHOD (request "GET" "/") = "GET"
  /\ PATH_INFO (request "GET" "/") = "/"
  /\ exists r,
       fst (respond no_environ no_files no_page bare_path "__main__"
              (request "GET" "/"))
         = Returned r
       /\ content_type r = "text/html; charset=utf-8"
       /\ forall s, content_type (make_response (rv_str s)) = content_type r.
Proof.
  split; [reflexivity|]. split; [reflexivity|].
  apply (get_root_content_type no_environ no_files no_page bare_path
           "__main__" (request "GET" "/")); reflexivity.
Defined.

(** The content type of the welcome response is Flask's default for text,
    which is not text/plain. *)
Example welcome_content_type :
  content_type welcome = "text/html; charset=utf-8"
  /\ content_type welcome <> "text/plain".
Proof. split; [reflexivity | discriminate]. Qed.


(** C6 at two GET requests for "/" that differ in query string, headers
    and body. *)
Lemma root_noninterference_witness :
  REQUEST_METHOD (request "GET" "/") = REQUEST_METHOD busy_request
  /\ PATH_INFO (request "GET" "/") = PATH_INFO busy_request
  /\ match_request bare_path (app no_environ "__main__") (request "GET" "/")
     = Returned (home_rule, [])
  /\ match_request bare_path (app no_environ "__main__") busy_request
     = Returned (home_rule, [])
  /\ endpoint home_rule = "home"
  /\ respond no_environ no_files no_page bare_path "__main__" (request "GET" "/")
     = respond no_environ no_files no_page bare_path "__main__" busy_request.
Proof.
  assert (H1 : match_request bare_path (app no_environ "__main__")
                 (request "GET" "/") = Returned (home_rule, []))
    by (vm_compute; reflexivity).
  assert (H2 : match_request bare_path (app no_environ "__main__")
                 busy_request = Returned (home_rule, []))
    by (vm_compute; reflexivity).
  split; [reflexivity|]. split; [reflexivity|].
  split; [exact H1|]. split; [exact H2|]. split; [reflexivity|].
  apply (root_noninterference no_environ no_files no_page bare_path "__main__"
           (request "GET" "/") busy_request home_rule [] home_rule []);
    [reflexivity | reflexivity | exact H1 | reflexivity | exact H2
    | reflexivity].
Defined.

(** C7 at a GET request for "/". *)
Lemma root_request_frame_witness :
  PATH_INFO (request "GET" "/") = "/"
  /\ (forall (S : Type) kwargs (s : S), snd (home kwargs s) = s)
  /\ snd (respond no_environ no_files no_page bare_path "__main__"
            (request "GET" "/"))
     = app no_environ "__main__".
Proof.
  split; [reflexivity|].
  apply (root_request_frame no_environ no_files no_page bare_path "__main__"
           (request "GET" "/")); reflexivity.
Defined.

(** C8 at a GET request for "/", which the URL map routes to "home"
    with no values. *)
Lemma home_never_raises_witness :
  match_ (url_map (app no_environ "__main__"))
    (is_websocket (request "GET" "/")) (bare_path (request "GET" "/"))
    "/" "GET" = Returned (home_rule, [])
  /\ endpoint home_rule = "home"
  /\ (exists rv, forall s,
        call fn_home (request "GET" "/") [] s = (Returned rv, s))
  /\ status (respond no_environ no_files no_page bare_path "__main__"
               (request "GET" "/"))
     = Some 200.
Proof.
  assert (Hm : match_ (url_map (app no_environ "__main__"))
                 (is_websocket (request "GET" "/"))
                 (bare_path (request "GET" "/")) "/" "GET"
               = Returned (home_rule, [])) by (vm_compute; reflexivity).
  split; [exact Hm|]. split; [reflexivity|].
  apply (home_never_raises no_environ no_files no_page bare_path "__main__"
           (request "GET" "/") home_rule []); [exact Hm | reflexivity].
Defined.



(** An OPTIONS request for "/" is answered with the methods of the
    rule. *)
Example options_root_allow :
  fst (respond no_environ no_files no_page bare_path "__main__"
         (request "OPTIONS" "/"))
  = Returned options_response.
Proof. vm_compute. reflexivity. Qed.

(** ** Requests at the edge of the amended C2 *)

(** A path of slashes only is read as "/" and reaches [home]. *)
Example double_slash_reaches_home :
  fst (respond no_environ no_files no_page bare_path "__main__"
         (request "GET" "//"))
  = Returned welcome.
Proof. vm_compute. reflexivity. Qed.

(** The empty path is redirected to "/". *)
Example empty_path_redirected :
  status (respond no_environ no_files no_page bare_path "__main__"
            (request "GET" ""))
  = Some 308.
Proof. vm_compute. reflexivity. Qed.

(** A file of the static folder is served with whatever
    [send_from_directory] makes of it. *)
Example static_file_served :
  fst (respond no_environ (fun _ _ _ => Some welcome) no_page bare_path
         "__main__" (request "GET" "/static/x"))
  = Returned welcome.
Proof. vm_compute. reflexivity. Qed.

(** A static path with a run of slashes is redirected to the path with
    the run merged. *)
Example static_merged_path_redirected :
  status (respond no_environ no_files no_page bare_path "__main__"
            (request "GET" "/static///x"))
  = Some 308.
Proof. vm_compute. reflexivity. Qed.

(** ** The properties of the whole application at concrete requests *)


